(** * Trinity-RFT launcher: a shallow embedding of [trinity/cli/launcher.py]

    The launcher is a single-threaded driver of two remote actors (the
    Explorer and the Trainer).  Everything it does is a sequence of
    effects on the outside world: actor creation, non-blocking remote
    calls, blocking [ray.get] / [ray.wait], logging, and requests to the
    data processor.  The embedding threads an explicit [World] (a clock
    and a time-stamped log of the effects performed so far) through a
    small monad with exceptions and blocking, and takes the behaviour of
    the cluster and of the remote workers as a [Runtime] parameter. *)

From Stdlib Require Import String Ascii List NArith ZArith Bool Lia.
Import ListNotations.
Local Open Scope string_scope.
Local Open Scope N_scope.

(** ** Configuration (the fields the launcher reads) *)

Record StorageConfig := {
  name : string;
  raw : bool
}.

Record DataPipelineConfig := {
  input_buffers : list StorageConfig;
  output_buffer : StorageConfig
}.

Record DataProcessorConfig := {
  data_processor_url : option string;
  task_pipeline : option DataPipelineConfig;
  experience_pipeline : option DataPipelineConfig
}.

Record Config := {
  mode : string;
  explorer_name : string;            (* config.explorer.name *)
  trainer_name : string;             (* config.trainer.name *)
  sync_timeout : N;                  (* config.synchronizer.sync_timeout *)
  ray_namespace : string;
  enable_ray_timeline : bool;        (* config.monitor.enable_ray_timeline *)
  cache_dir : string;                (* config.monitor.cache_dir *)
  data_processor : DataProcessorConfig
}.

(** ** Actors, remote methods and object references *)

Inductive role := Explorer | Trainer.

Inductive method :=
  Ready | Prepare | SyncWeight | Explore | Train | Benchmark | Shutdown.

Definition role_eqb (a b : role) : bool :=
  match a, b with
  | Explorer, Explorer | Trainer, Trainer => true
  | _, _ => false
  end.

Definition method_eqb (a b : method) : bool :=
  match a, b with
  | Ready, Ready | Prepare, Prepare | SyncWeight, SyncWeight
  | Explore, Explore | Train, Train | Benchmark, Benchmark
  | Shutdown, Shutdown => true
  | _, _ => false
  end.

(** The [run] operation of a role: [explore] for the Explorer, [train]
    for the Trainer. *)
Definition run_method (r : role) : method :=
  match r with Explorer => Explore | Trainer => Train end.

Definition other (r : role) : role :=
  match r with Explorer => Trainer | Trainer => Explorer end.

(** The reference returned by [actor.method.remote()], with the time at
    which the call was dispatched. *)
Record ObjectRef := {
  ref_actor : role;
  ref_method : method;
  ref_issued : N
}.

(** ** The runtime: what the cluster and the remote workers do *)

Inductive reply :=
| Returns (v : string)     (* the remote method returned [v] *)
| Raises.                  (* the remote method raised *)

Inductive outcome :=
| Finishes (d : N) (r : reply)   (* resolves [d] time units after dispatch *)
| Never.                         (* stays pending for ever *)

Record Runtime := {
  spawn : role -> bool;                    (* actor creation succeeds *)
  behaviour : role -> method -> outcome;   (* what each remote call does *)
  tie_break : role;                        (* whom [ray.wait] reports when
                                              both resolve at the same time *)
  is_running : bool;                       (* truth value of dlc_utils.is_running *)
  load_config : string -> option Config;   (* load_config + check_and_update;
                                              None when either raises *)
  request : string -> string -> Z * string (* client.request: return_code, return_msg *)
}.

(** ** Effects *)

Inductive level := INFO | WARNING | ERROR.

Inductive message :=
| BenchmarkFinished
| BenchmarkFailed
| ExplorerFailed
| TrainerFailed
| TrainerHasFinished                 (* "Stopping the explorer process immediately." *)
| ExplorerHasFinished (timeout : N)  (* "Waiting {sync_timeout} s for the trainer process..." *)
| ActivatingDataModule (url : string)
| FailedToActivate (msg : string)
| EmptyInputBuffers
| OutputInInputBuffers
| InputNotRaw
| InvalidPipelineType (ty : string)
| ExportingTimeline (file : string)
| TimelineDone.

Inductive action :=
| Spawn (r : role) (actor_name : string)      (* ray.remote(C).options(name=..).remote(config) *)
| Call (r : role) (m : method)                (* r.m.remote() *)
| Got (r : role) (m : method)                 (* ray.get delivered the result *)
| Wait (refs : list (role * method)) (timeout : option N)   (* ray.wait entered *)
| Woke (ready : list (role * method))         (* ray.wait returned *)
| Log (l : level) (msg : message)
| Request (url config_path : string)
| SetupRayCluster
| RayInit
| RayTimeline (file : string)
| StopRayCluster.

Definition event : Type := N * action.

Record World := {
  clock : N;
  events : list event      (* oldest first *)
}.

Definition init_world : World := {| clock := 0; events := [] |}.

Inductive exn :=
| RayTaskError (r : role) (m : method)
| RayActorError (r : role)
| ValueError
| IndexError
| NotImplementedError
| RuntimeError
| ConfigError.

Inductive result (A : Type) :=
| Ok (a : A) (w : World)       (* returned normally *)
| Exc (e : exn) (w : World)    (* an exception propagates *)
| Blocked (w : World).         (* a blocking call never returns *)
Arguments Ok {A} a w.
Arguments Exc {A} e w.
Arguments Blocked {A} w.

Definition M (A : Type) : Type := World -> result A.

Definition ret {A} (a : A) : M A := fun w => Ok a w.

Definition bind {A B} (c : M A) (k : A -> M B) : M B :=
  fun w => match c w with
           | Ok a w' => k a w'
           | Exc e w' => Exc e w'
           | Blocked w' => Blocked w'
           end.

Definition raise {A} (e : exn) : M A := fun w => Exc e w.

(** [try: body except Exception: handler] *)
Definition try_except {A} (body : M A) (handler : exn -> M A) : M A :=
  fun w => match body w with
           | Exc e w' => handler e w'
           | r => r
           end.

(** [try: body finally: cleanup] *)
Definition try_finally {A} (body : M A) (cleanup : M unit) : M A :=
  fun w => match body w with
           | Ok a w' =>
               match cleanup w' with
               | Ok _ w'' => Ok a w''
               | Exc e w'' => Exc e w''
               | Blocked w'' => Blocked w''
               end
           | Exc e w' =>
               match cleanup w' with
               | Ok _ w'' => Exc e w''
               | Exc e' w'' => Exc e' w''
               | Blocked w'' => Blocked w''
               end
           | Blocked w' => Blocked w'
           end.

Declare Scope launcher_scope.
Delimit Scope launcher_scope with launcher.
Notation "x <- c ;; k" := (bind c (fun x => k))
  (at level 61, c at next level, right associativity) : launcher_scope.
Notation "c ;; k" := (bind c (fun _ => k))
  (at level 61, right associativity) : launcher_scope.
Local Open Scope launcher_scope.

Definition emit (a : action) : M unit :=
  fun w => Ok tt {| clock := clock w; events := events w ++ [(clock w, a)] |}.

Definition sleep_until (t : N) : M unit :=
  fun w => Ok tt {| clock := N.max (clock w) t; events := events w |}.

Definition now : M N := fun w => Ok (clock w) w.

Definition logger (l : level) (msg : message) : M unit := emit (Log l msg).

Definition world_of {A} (r : result A) : World :=
  match r with Ok _ w | Exc _ w | Blocked w => w end.

Definition actions (w : World) : list action := map snd (events w).

(** ** validate_data_pipeline *)

(** The [for buffer in input_buffers] loop of the task branch: [false]
    as soon as a buffer is not raw. *)
Fixpoint all_raw (bufs : list StorageConfig) : M bool :=
  match bufs with
  | [] => ret true
  | buffer :: rest =>
      if negb (raw buffer)
      then logger WARNING InputNotRaw ;; ret false
      else all_raw rest
  end.

Definition validate_data_pipeline
    (data_pipeline_config : DataPipelineConfig) (pipeline_type : string) : M bool :=
  let input_buffers := input_buffers data_pipeline_config in
  let output_buffer := output_buffer data_pipeline_config in
  if (List.length input_buffers =? 0)%nat
  then logger WARNING EmptyInputBuffers ;; ret false
  else
    let input_buffer_names := map name input_buffers in
    if existsb (String.eqb (name output_buffer)) input_buffer_names
    then logger WARNING OutputInInputBuffers ;; ret false
    else if (pipeline_type =? "task")%string
    then ok <- all_raw input_buffers ;;
         if ok then ret true else ret false
    else if (pipeline_type =? "experience")%string
    then raise NotImplementedError
    else logger WARNING (InvalidPipelineType pipeline_type) ;; ret false.

(** ** Ray primitives, relative to a runtime *)

Section Launcher.

Variable rt : Runtime.

Definition block {A} : M A := fun w => Blocked w.

(** [ray.remote(C).options(name=actor_name, namespace=...).remote(config)] *)
Definition actor_new (r : role) (actor_name : string) : M role :=
  if spawn rt r
  then emit (Spawn r actor_name) ;; ret r
  else raise (RayActorError r).

(** [actor.m.remote()]: dispatches and returns at once. *)
Definition remote (actor : role) (m : method) : M ObjectRef :=
  t <- now ;;
  emit (Call actor m) ;;
  ret {| ref_actor := actor; ref_method := m; ref_issued := t |}.

(** When, and how, the call behind a reference resolves. *)
Definition resolution (ref : ObjectRef) : option (N * reply) :=
  match behaviour rt (ref_actor ref) (ref_method ref) with
  | Finishes d r => Some (ref_issued ref + d, r)
  | Never => None
  end.

Definition tag (ref : ObjectRef) : role * method :=
  (ref_actor ref, ref_method ref).

Definition got (ref : ObjectRef) : action :=
  Got (ref_actor ref) (ref_method ref).

(** The earliest failure among the references, if any. *)
Fixpoint first_failure (refs : list ObjectRef) : option (N * ObjectRef) :=
  match refs with
  | [] => None
  | ref :: rest =>
      match resolution ref, first_failure rest with
      | Some (t, Raises), Some (t', ref') =>
          if t' <? t then Some (t', ref') else Some (t, ref)
      | Some (t, Raises), None => Some (t, ref)
      | _, later => later
      end
  end.

(** The values of the references and the time the last one arrives, when
    every call returns. *)
Fixpoint gather (refs : list ObjectRef) : option (N * list string) :=
  match refs with
  | [] => Some (0, [])
  | ref :: rest =>
      match resolution ref, gather rest with
      | Some (t, Returns v), Some (t', vs) => Some (N.max t t', v :: vs)
      | _, _ => None
      end
  end.

Fixpoint emit_all (l : list action) : M unit :=
  match l with
  | [] => ret tt
  | a :: rest => emit a ;; emit_all rest
  end.

(** [ray.get(refs)] on a list: blocks until every reference has a value;
    a failed call is re-raised in the caller. *)
Definition ray_get (refs : list ObjectRef) : M (list string) :=
  match first_failure refs with
  | Some (t, ref) =>
      sleep_until t ;; raise (RayTaskError (ref_actor ref) (ref_method ref))
  | None =>
      match gather refs with
      | Some (t, vs) => sleep_until t ;; emit_all (map got refs) ;; ret vs
      | None => block
      end
  end.

(** [ray.get(ref)] on a single reference. *)
Definition ray_get_one (ref : ObjectRef) : M string :=
  match resolution ref with
  | Some (t, Returns v) => sleep_until t ;; emit (got ref) ;; ret v
  | Some (t, Raises) =>
      sleep_until t ;; raise (RayTaskError (ref_actor ref) (ref_method ref))
  | None => block
  end.

(** The reference that resolves first (a failed call counts as resolved);
    [tie_break] decides between two that resolve together. *)
Fixpoint first_resolved (refs : list ObjectRef) : option (N * ObjectRef) :=
  match refs with
  | [] => None
  | ref :: rest =>
      match resolution ref, first_resolved rest with
      | Some (t, _), Some (t', ref') =>
          if t <? t' then Some (t, ref)
          else if t' <? t then Some (t', ref')
          else if role_eqb (ref_actor ref') (tie_break rt)
               then Some (t', ref') else Some (t, ref)
      | Some (t, _), None => Some (t, ref)
      | None, later => later
      end
  end.

Definition ref_eqb (a b : ObjectRef) : bool :=
  role_eqb (ref_actor a) (ref_actor b)
  && method_eqb (ref_method a) (ref_method b)
  && (ref_issued a =? ref_issued b).

Fixpoint remove_ref (ref : ObjectRef) (refs : list ObjectRef) : list ObjectRef :=
  match refs with
  | [] => []
  | r :: rest => if ref_eqb r ref then rest else r :: remove_ref ref rest
  end.

(** [ray.wait(refs, num_returns=1, timeout=timeout)]: returns the pair
    (ready, not ready) as soon as one reference has resolved, or when the
    timeout has elapsed. *)
Definition ray_wait (refs : list ObjectRef) (timeout : option N)
  : M (list ObjectRef * list ObjectRef) :=
  if (List.length refs <? 1)%nat then raise ValueError
  else
    t0 <- now ;;
    emit (Wait (map tag refs) timeout) ;;
    let wake t ref :=
      sleep_until t ;; emit (Woke [tag ref]) ;; ret ([ref], remove_ref ref refs) in
    let expire limit :=
      sleep_until (t0 + limit) ;; emit (Woke []) ;; ret ([], refs) in
    match first_resolved refs, timeout with
    | Some (t, ref), None => wake t ref
    | Some (t, ref), Some limit =>
        if t <=? t0 + limit then wake t ref else expire limit
    | None, Some limit => expire limit
    | None, None => block
    end.

(** ** The four modes *)

Definition bench (config : Config) : M unit :=
  explorer <- actor_new Explorer (explorer_name config) ;;
  try_except
    (r <- remote explorer Prepare ;; _ <- ray_get_one r ;;
     r <- remote explorer Benchmark ;; _ <- ray_get_one r ;;
     logger INFO BenchmarkFinished ;;
     r <- remote explorer Shutdown ;; _ <- ray_get_one r ;;
     ret tt)
    (fun _ => logger ERROR BenchmarkFailed).

Definition explore (config : Config) : M unit :=
  try_except
    (explorer <- actor_new Explorer (explorer_name config) ;;
     r <- remote explorer Prepare ;; _ <- ray_get_one r ;;
     r <- remote explorer SyncWeight ;; _ <- ray_get_one r ;;
     r <- remote explorer Explore ;; _ <- ray_get_one r ;;
     r <- remote explorer Shutdown ;; _ <- ray_get_one r ;;
     ret tt)
    (fun _ => logger ERROR ExplorerFailed).

Definition train (config : Config) : M unit :=
  try_except
    (trainer <- actor_new Trainer (trainer_name config) ;;
     r <- remote trainer Prepare ;; _ <- ray_get_one r ;;
     r <- remote trainer SyncWeight ;; _ <- ray_get_one r ;;
     r <- remote trainer Train ;; _ <- ray_get_one r ;;
     r <- remote trainer Shutdown ;; _ <- ray_get_one r ;;
     ret tt)
    (fun _ => logger ERROR TrainerFailed).

(** The two branches on the token of the first finished [run]. *)
Definition grace_wait (config : Config) (ready : string)
    (wait_ref : list ObjectRef) : M unit :=
  if (ready =? trainer_name config)%string then
    logger INFO TrainerHasFinished ;;
    _ <- ray_wait wait_ref (Some 5) ;;
    ret tt
  else if (ready =? explorer_name config)%string then
    logger INFO (ExplorerHasFinished (sync_timeout config)) ;;
    _ <- ray_wait wait_ref (Some (sync_timeout config)) ;;
    ret tt
  else ret tt.

Definition both (config : Config) : M unit :=
  explorer <- actor_new Explorer (explorer_name config) ;;
  trainer <- actor_new Trainer (trainer_name config) ;;
  e <- remote explorer Ready ;; t <- remote trainer Ready ;;
  _ <- ray_get [e; t] ;;
  e <- remote explorer Prepare ;; t <- remote trainer Prepare ;;
  _ <- ray_get [e; t] ;;
  e <- remote explorer SyncWeight ;; t <- remote trainer SyncWeight ;;
  _ <- ray_get [e; t] ;;
  e <- remote explorer Explore ;; t <- remote trainer Train ;;
  rw <- ray_wait [e; t] None ;;
  let ready_ref := fst rw in
  let wait_ref := snd rw in
  ready <- match ready_ref with
           | r0 :: _ => ray_get_one r0
           | [] => raise IndexError
           end ;;
  grace_wait config ready wait_ref ;;
  _ <- remote explorer Shutdown ;;
  _ <- remote trainer Shutdown ;;
  ret tt.

(** ** Data-pipeline activation and the [run] entry point *)

Definition activate_data_module (data_processor_url config_path : string) : M unit :=
  logger INFO (ActivatingDataModule data_processor_url) ;;
  emit (Request data_processor_url config_path) ;;
  let res := request rt data_processor_url config_path in
  if negb (fst res =? 0)%Z
  then logger ERROR (FailedToActivate (snd res))
  else ret tt.

(** Python truth value of an optional string. *)
Definition truthy (u : option string) : bool :=
  match u with
  | Some s => negb (s =? "")%string
  | None => false
  end.

(** [if url and task_pipeline and validate_data_pipeline(task_pipeline, "task"):
       activate_data_module(f"{url}/task_pipeline", config_path)] *)
Definition activate_task_pipeline (config : Config) (config_path : string) : M unit :=
  let data_processor_config := data_processor config in
  match data_processor_url data_processor_config with
  | Some url =>
      if truthy (Some url) then
        match task_pipeline data_processor_config with
        | Some pipeline =>
            ok <- validate_data_pipeline pipeline "task" ;;
            if ok then activate_data_module (url ++ "/task_pipeline") config_path
            else ret tt
        | None => ret tt
        end
      else ret tt
  | None => ret tt
  end.

(** The same statement for the experience pipeline. *)
Definition activate_experience_pipeline (config : Config) (config_path : string)
  : M unit :=
  let data_processor_config := data_processor config in
  match data_processor_url data_processor_config with
  | Some url =>
      if truthy (Some url) then
        match experience_pipeline data_processor_config with
        | Some pipeline =>
            ok <- validate_data_pipeline pipeline "experience" ;;
            if ok then activate_data_module (url ++ "/experience_pipeline") config_path
            else ret tt
        | None => ret tt
        end
      else ret tt
  | None => ret tt
  end.

Fixpoint ends_with_slash (s : string) : bool :=
  match s with
  | EmptyString => false
  | String c EmptyString => Ascii.eqb c "/"%char
  | String _ rest => ends_with_slash rest
  end.

(** [os.path.join(a, b)] for a relative [b]. *)
Definition os_path_join (a b : string) : string :=
  if (a =? "")%string then b
  else if ends_with_slash a then a ++ b
  else a ++ "/" ++ b.

(** The [try] body of [run]: the dispatch on [config.mode]. *)
Definition dispatch (config : Config) : M unit :=
  if (mode config =? "explore")%string then explore config
  else if (mode config =? "train")%string then train config
  else if (mode config =? "both")%string then both config
  else if (mode config =? "bench")%string then bench config
  else ret tt.

(** The [finally] block of [run]. *)
Definition cleanup (config : Config) (dlc : bool) : M unit :=
  (if enable_ray_timeline config then
     let timeline_file := os_path_join (cache_dir config) "timeline.json" in
     logger INFO (ExportingTimeline timeline_file) ;;
     emit (RayTimeline timeline_file) ;;
     logger INFO TimelineDone
   else ret tt) ;;
  if dlc then emit StopRayCluster else ret tt.

(** What [run] does once the data pipelines have been looked at: cluster
    set-up, then the [try ... finally]. *)
Definition launch (config : Config) (dlc : bool) : M unit :=
  (if dlc then emit SetupRayCluster
   else if negb (is_running rt) then raise RuntimeError
   else emit RayInit) ;;
  try_finally (dispatch config) (cleanup config dlc).

Definition run (config_path : string) (dlc : bool) : M unit :=
  match load_config rt config_path with
  | None => raise ConfigError
  | Some config =>
      activate_task_pipeline config config_path ;;
      activate_experience_pipeline config config_path ;;
      launch config dlc
  end.

End Launcher.

(** ** Vocabulary for the statements *)

Definition is_ok {A} (r : result A) : bool :=
  match r with Ok _ _ => true | _ => false end.

Definition returns (o : outcome) : bool :=
  match o with Finishes _ (Returns _) => true | _ => false end.

Definition fails (o : outcome) : bool :=
  match o with Finishes _ Raises => true | _ => false end.

(** Both handles complete the phase [m]. *)
Definition passes (rt : Runtime) (m : method) : bool :=
  returns (behaviour rt Explorer m) && returns (behaviour rt Trainer m).

(** Both actors are created and the three barriers pass, so that the two
    [run] operations are dispatched. *)
Definition reaches_race (rt : Runtime) : bool :=
  spawn rt Explorer && spawn rt Trainer
  && passes rt Ready && passes rt Prepare && passes rt SyncWeight.

(** Which of the two [run] operations, dispatched at the same instant,
    resolves first. *)
Definition winner (rt : Runtime) : option role :=
  match behaviour rt Explorer Explore, behaviour rt Trainer Train with
  | Finishes dE _, Finishes dT _ =>
      if dE <? dT then Some Explorer
      else if dT <? dE then Some Trainer
      else Some (tie_break rt)
  | Finishes _ _, Never => Some Explorer
  | Never, Finishes _ _ => Some Trainer
  | Never, Never => None
  end.

(** [both] runs to its last statement. *)
Definition runs_to_end (rt : Runtime) : bool :=
  reaches_race rt &&
  match winner rt with
  | Some r => returns (behaviour rt r (run_method r))
  | None => false
  end.


Definition is_call (r : role) (m : method) (a : action) : bool :=
  match a with
  | Call r' m' => role_eqb r r' && method_eqb m m'
  | _ => false
  end.

(** How many times [m] was invoked on the handle of [r]. *)
Definition count_calls (r : role) (m : method) (w : World) : nat :=
  List.length (filter (is_call r m) (actions w)).

(** A [ray.wait] with a timeout: the wait on the operation that lost the race. *)
Definition is_grace_wait (a : action) : bool :=
  match a with
  | Wait _ (Some _) => true
  | _ => false
  end.

Definition is_error_log (a : action) : bool :=
  match a with
  | Log ERROR _ => true
  | _ => false
  end.

Definition is_request (a : action) : bool :=
  match a with
  | Request _ _ => true
  | _ => false
  end.

(** The requests sent to the data processor. *)
Definition requests (w : World) : list action :=
  filter is_request (actions w).

Definition error_logs (w : World) : list action :=
  filter is_error_log (actions w).

Definition raised {A} (r : result A) : bool :=
  match r with Exc _ _ => true | _ => false end.

(** The timed waits of a run, with the instants at which they started. *)
Definition grace_waits (w : World) : list event :=
  filter (fun e => is_grace_wait (snd e)) (events w).

Definition is_shutdown (a : action) : bool :=
  match a with
  | Call _ Shutdown => true
  | _ => false
  end.

(** The [shutdown] calls of a run, with the instants at which they were issued. *)
Definition shutdowns (w : World) : list event :=
  filter (fun e => is_shutdown (snd e)) (events w).

(** The phase that must be complete on both handles before [m] is invoked. *)
Definition previous_phase (m : method) : option method :=
  match m with
  | Prepare => Some Ready
  | SyncWeight => Some Prepare
  | Explore | Train => Some SyncWeight
  | _ => None
  end.

(** The calls that open a phase after the first: those of [prepare],
    [sync_weight] and the two [run] operations. *)
Definition is_phase_call (e : event) : bool :=
  match snd e with
  | Call _ m => match previous_phase m with Some _ => true | None => false end
  | _ => false
  end.

(** ** Concrete configurations and runtimes *)

Definition no_data_processor : DataProcessorConfig :=
  {| data_processor_url := None; task_pipeline := None; experience_pipeline := None |}.

Definition example_config : Config :=
  {| mode := "both";
     explorer_name := "explorer";
     trainer_name := "trainer";
     sync_timeout := 300;
     ray_namespace := "default";
     enable_ray_timeline := true;
     cache_dir := "/tmp/trinity";
     data_processor := no_data_processor |}.


(** A cluster on which every actor is created, every phase call returns
    after one time unit, and the two [run] operations behave as given. *)
Definition cluster (config : Config) (explorer_run trainer_run : outcome) : Runtime :=
  {| spawn := fun _ => true;
     behaviour := fun r m =>
       match r, m with
       | Explorer, Explore => explorer_run
       | Trainer, Train => trainer_run
       | _, _ => Finishes 1 (Returns "")
       end;
     tie_break := Explorer;
     is_running := true;
     load_config := fun _ => Some config;
     request := fun _ _ => (0%Z, "") |}.

(** Trainer done after 2, Explorer still running. *)
Definition trainer_first_cluster : Runtime :=
  cluster example_config Never (Finishes 2 (Returns "trainer")).



(** The Trainer's [train] raises after 2, the Explorer is still running. *)
Definition failing_run_cluster : Runtime :=
  cluster example_config Never (Finishes 2 Raises).

(** The Explorer's [explore] returns a token that is nobody's name. *)
Definition stray_token_cluster : Runtime :=
  cluster example_config (Finishes 10 (Returns "rollout")) Never.

(** [prepare] raises on the Trainer after 3. *)
Definition failing_prepare_cluster : Runtime :=
  {| spawn := fun _ => true;
     behaviour := fun r m =>
       match r, m with
       | Trainer, Prepare => Finishes 3 Raises
       | _, _ => Finishes 1 (Returns "")
       end;
     tie_break := Explorer;
     is_running := true;
     load_config := fun _ => Some example_config;
     request := fun _ _ => (0%Z, "") |}.

(** The same failure in "train" mode. *)
Definition train_mode_config : Config :=
  {| mode := "train";
     explorer_name := "explorer";
     trainer_name := "trainer";
     sync_timeout := 300;
     ray_namespace := "default";
     enable_ray_timeline := true;
     cache_dir := "/tmp/trinity";
     data_processor := no_data_processor |}.

Definition failing_prepare_train_cluster : Runtime :=
  {| spawn := fun _ => true;
     behaviour := fun r m =>
       match r, m with
       | Trainer, Prepare => Finishes 3 Raises
       | _, _ => Finishes 1 (Returns "")
       end;
     tie_break := Explorer;
     is_running := true;
     load_config := fun _ => Some train_mode_config;
     request := fun _ _ => (0%Z, "") |}.

(** A data processor whose two pipelines both read nothing. *)
Definition empty_pipeline : DataPipelineConfig :=
  {| input_buffers := [];
     output_buffer := {| name := "out"; raw := false |} |}.

Definition empty_pipelines_config : Config :=
  {| mode := "both";
     explorer_name := "explorer";
     trainer_name := "trainer";
     sync_timeout := 300;
     ray_namespace := "default";
     enable_ray_timeline := false;
     cache_dir := "/tmp/trinity";
     data_processor :=
       {| data_processor_url := Some "http://127.0.0.1:5005";
          task_pipeline := Some empty_pipeline;
          experience_pipeline := Some empty_pipeline |} |}.

Definition empty_pipelines_cluster : Runtime :=
  cluster empty_pipelines_config Never (Finishes 2 (Returns "trainer")).

(** ** Vocabulary for the single-worker modes and the entry point *)

(** The world after one more warning. *)
Definition warned (w : World) (msg : message) : World :=
  {| clock := clock w;
     events := events w ++ [(clock w, Log WARNING msg)] |}.

Definition blocked {A} (r : result A) : bool :=
  match r with Blocked _ => true | _ => false end.

Definition is_log (a : action) : bool :=
  match a with Log _ _ => true | _ => false end.

Definition is_info_log (a : action) : bool :=
  match a with Log INFO _ => true | _ => false end.

Definition info_logs (w : World) : list action :=
  filter is_info_log (actions w).

Definition is_timeline (a : action) : bool :=
  match a with RayTimeline _ => true | _ => false end.

Definition timeline_exports (w : World) : list action :=
  filter is_timeline (actions w).

Definition is_stop_cluster (a : action) : bool :=
  match a with StopRayCluster => true | _ => false end.

Definition cluster_stops (w : World) : list action :=
  filter is_stop_cluster (actions w).

Definition is_spawn (a : action) : bool :=
  match a with Spawn _ _ => true | _ => false end.

Definition spawns (w : World) : list action :=
  filter is_spawn (actions w).

(** How far a sequence of awaited calls on one handle gets: each call is
    awaited before the next is issued. *)
Inductive progress := Completed | Failed | Hung.

Fixpoint await_each (rt : Runtime) (r : role) (ms : list method) : progress :=
  match ms with
  | [] => Completed
  | m :: rest =>
      match behaviour rt r m with
      | Finishes _ (Returns _) => await_each rt r rest
      | Finishes _ Raises => Failed
      | Never => Hung
      end
  end.

(** The URL the task pipeline is activated at, when the three conditions of
    [run] hold: a non-empty data-processor URL, a task pipeline, and a
    pipeline that validates. *)
Definition task_activation_target (config : Config) : option string :=
  match data_processor_url (data_processor config),
        task_pipeline (data_processor config) with
  | Some url, Some p =>
      if negb (url =? "")%string
         && negb (List.length (input_buffers p) =? 0)%nat
         && negb (existsb (String.eqb (name (output_buffer p)))
                          (map name (input_buffers p)))
         && forallb raw (input_buffers p)
      then Some (url ++ "/task_pipeline")
      else None
  | _, _ => None
  end.

(** One raw input, another output. *)
Definition raw_pipeline : DataPipelineConfig :=
  {| input_buffers := [ {| name := "tasks"; raw := true |} ];
     output_buffer := {| name := "prepared"; raw := false |} |}.

Definition task_pipeline_config : Config :=
  {| mode := "both";
     explorer_name := "explorer";
     trainer_name := "trainer";
     sync_timeout := 300;
     ray_namespace := "default";
     enable_ray_timeline := false;
     cache_dir := "/tmp/trinity";
     data_processor :=
       {| data_processor_url := Some "http://127.0.0.1:5005";
          task_pipeline := Some raw_pipeline;
          experience_pipeline := None |} |}.

Definition experience_pipeline_config : Config :=
  {| mode := "both";
     explorer_name := "explorer";
     trainer_name := "trainer";
     sync_timeout := 300;
     ray_namespace := "default";
     enable_ray_timeline := true;
     cache_dir := "/tmp/trinity";
     data_processor :=
       {| data_processor_url := Some "http://127.0.0.1:5005";
          task_pipeline := Some raw_pipeline;
          experience_pipeline := Some raw_pipeline |} |}.

Definition experience_pipeline_cluster : Runtime :=
  cluster experience_pipeline_config Never (Finishes 2 (Returns "trainer")).

(** A mode that is none of the four. *)
Definition typo_mode_config : Config :=
  {| mode := "botn";
     explorer_name := "explorer";
     trainer_name := "trainer";
     sync_timeout := 300;
     ray_namespace := "default";
     enable_ray_timeline := true;
     cache_dir := "/tmp/trinity";
     data_processor := no_data_processor |}.

Definition typo_mode_cluster : Runtime :=
  cluster typo_mode_config Never Never.

(** The Explorer finishes first, the Trainer's [train] raises during the wait. *)
Definition failing_loser_cluster : Runtime :=
  cluster example_config (Finishes 10 (Returns "explorer")) (Finishes 20 Raises).

(** ** Facts about validate_data_pipeline *)

Lemma existsb_eqb_In (x : string) (l : list string) :
  existsb (String.eqb x) l = true <-> In x l.
Proof.
  rewrite existsb_exists. split.
  - intros [y [Hy Heq]]. apply String.eqb_eq in Heq. now subst.
  - intros H. exists x. split; [assumption | apply String.eqb_refl].
Qed.

Lemma all_raw_total (bufs : list StorageConfig) (w : World) :
  exists w', all_raw bufs w = Ok (forallb raw bufs) w'.
Proof.
  induction bufs as [| b rest IH]; simpl.
  - now exists w.
  - destruct (raw b); simpl.
    + exact IH.
    + eexists. reflexivity.
Qed.

(** C7.  For pipeline type "task", validate_data_pipeline always returns a
    boolean, and that boolean is True exactly when the input-buffer list is
    non-empty, the output buffer's name is not the name of an input buffer,
    and every input buffer is marked raw. *)
Theorem validate_task_iff (p : DataPipelineConfig) (w : World) :
  exists b w',
    validate_data_pipeline p "task" w = Ok b w' /\
    (b = true <->
       input_buffers p <> [] /\
       ~ In (name (output_buffer p)) (map name (input_buffers p)) /\
       Forall (fun buffer => raw buffer = true) (input_buffers p)).
Proof.
  unfold validate_data_pipeline.
  destruct (input_buffers p) as [| b0 rest] eqn:Hin.
  - exists false. eexists. split; [reflexivity |].
    split; [discriminate | intros [H _]; now elim H].
  - cbn [List.length Nat.eqb].
    destruct (existsb (String.eqb (name (output_buffer p))) (map name (b0 :: rest)))
      eqn:Hex.
    + exists false. eexists. split; [reflexivity |].
      split; [discriminate |].
      intros (_ & Hnot & _). apply existsb_eqb_In in Hex. contradiction.
    + change ("task" =? "task")%string with true. cbv iota.
      destruct (all_raw_total (b0 :: rest) w) as [w' Hraw].
      exists (forallb raw (b0 :: rest)), w'. split.
      * unfold bind. rewrite Hraw. now destruct (forallb raw (b0 :: rest)).
      * rewrite forallb_forall, Forall_forall. split.
        -- intros Hall. repeat split; try discriminate; try assumption.
           intros HIn. apply existsb_eqb_In in HIn. congruence.
        -- now intros (_ & _ & Hall).
Qed.

(** ** Symbolic execution of the launcher *)

Unset Lia Cache.

#[local] Arguments N.add : simpl never.
#[local] Arguments N.max : simpl never.
#[local] Arguments N.ltb : simpl never.
#[local] Arguments N.leb : simpl never.
#[local] Arguments N.eqb : simpl never.
#[local] Arguments String.eqb : simpl never.

(** The scrutinee on which the evaluation of [t] is stuck. *)
Ltac head_scrut t :=
  lazymatch t with
  | match ?s with _ => _ end => head_scrut s
  | ?f ?x =>
      lazymatch f with
      | match _ with _ => _ end => head_scrut f
      | _ => t
      end
  | _ => t
  end.

Ltac unfold_launcher E :=
  unfold run, launch, dispatch, cleanup, both, explore, train, bench,
    grace_wait, try_except, try_finally, ray_wait, ray_get, ray_get_one,
    actor_new, remote, logger, bind, ret, raise, now, emit, sleep_until,
    block, got, tag in E.

(** Settle every [N.max] the run has computed so far: by the order of its
    arguments when the context decides it, and otherwise (the later of two
    replies of unrelated durations) by a name for the instant, of which the
    context keeps that it is no earlier than either reply. *)
Ltac name_times E :=
  repeat match type of E with
         | context [N.max ?a ?b] =>
             first
               [ rewrite (N.max_r a b) in E by lia
               | rewrite (N.max_l a b) in E by lia
               | lazymatch a with context [N.max _ _] => fail | _ => idtac end;
                 lazymatch b with context [N.max _ _] => fail | _ => idtac end;
                 let c := fresh "t" in
                 let Hc := fresh "Ht" in
                 remember (N.max a b) as c eqn:Hc in *;
                 assert (a <= c) by (rewrite Hc; apply N.le_max_l);
                 assert (b <= c) by (rewrite Hc; apply N.le_max_r);
                 clear Hc ]
         end.

(** One step: decide the scrutinee the run [E : res = ...] is stuck on,
    from a known fact when there is one, by cases otherwise. *)
Ltac exec_step E :=
  cbn in E; name_times E;
  try (rewrite !N.eqb_refl in E; cbn in E);
  match type of E with
  | _ = ?t =>
      let s := head_scrut t in
      lazymatch s with
      | resolution _ _ => unfold resolution in E
      | spawn ?rt ?r =>
          first [ match goal with H : s = _ |- _ => rewrite H in E end
                | let H := fresh "Hspawn" in destruct s eqn:H ]
      | behaviour ?rt ?r ?m =>
          first [ match goal with H : s = _ |- _ => rewrite H in E end
                | let H := fresh "Hbeh" in destruct s as [? [?|]|] eqn:H ]
      | tie_break ?rt =>
          first [ match goal with H : s = _ |- _ => rewrite H in E end
                | let H := fresh "Htie" in destruct s eqn:H ]
      | role_eqb _ (tie_break ?rt) =>
          first [ match goal with H : tie_break rt = _ |- _ => rewrite H in E end
                | let H := fresh "Htie" in destruct (tie_break rt) eqn:H ]
      | N.eqb ?a ?a => rewrite (N.eqb_refl a) in E
      | N.ltb ?a ?b =>
          let H := fresh "Hlt" in
          destruct (N.ltb_spec a b) as [H | H];
          [ try rewrite (proj2 (N.ltb_lt a b) H) in E
          | try rewrite (proj2 (N.ltb_ge a b) H) in E ]
      | N.leb ?a ?b =>
          let H := fresh "Hle" in
          destruct (N.leb_spec a b) as [H | H];
          [ try rewrite (proj2 (N.leb_le a b) H) in E
          | try rewrite (proj2 (N.leb_gt a b) H) in E ]
      | String.eqb ?a ?a => rewrite (String.eqb_refl a) in E
      | String.eqb ?a ?b =>
          let H := fresh "Hstr" in
          destruct (String.eqb_spec a b) as [H | H];
          [ try rewrite (proj2 (String.eqb_eq a b) H) in E
          | try rewrite (proj2 (String.eqb_neq a b) H) in E ]
      end
  end.

Ltac exec E := unfold_launcher E; repeat exec_step E; cbn in E; name_times E.

Ltac rewrite_behaviours H :=
  repeat match goal with
         | Hb : behaviour _ _ _ = _ |- _ => rewrite Hb in H
         | Hb : spawn _ _ = _ |- _ => rewrite Hb in H
         | Hb : tie_break _ = _ |- _ => rewrite Hb in H
         end.

Ltac rewrite_behaviours_goal :=
  repeat match goal with
         | Hb : behaviour _ _ _ = _ |- _ => rewrite Hb
         | Hb : spawn _ _ = _ |- _ => rewrite Hb
         | Hb : tie_break _ = _ |- _ => rewrite Hb
         end.

(** Decide the comparisons of durations left in the goal. *)
Ltac decide_ltb :=
  repeat match goal with
         | |- context [N.ltb ?a ?b] =>
             let H := fresh "Hlt" in
             destruct (N.ltb_spec a b) as [H | H]; try (exfalso; lia)
         end.

Ltac split_andb :=
  repeat match goal with
         | H : _ && _ = true |- _ => apply andb_prop in H; destruct H
         end.

(** Turn [reaches_race rt = true] into the facts it stands for. *)
Ltac use_reaches_race H :=
  unfold reaches_race, passes in H; split_andb;
  repeat match goal with
         | H : returns (behaviour ?rt ?r ?m) = true |- _ =>
             let Hb := fresh "Hbeh" in
             destruct (behaviour rt r m) as [? [?|]|] eqn:Hb;
             try discriminate H; clear H
         end.

(** Close a case in which the run went another way than [winner] says. *)
Ltac absurd_winner Hw :=
  exfalso; unfold winner in Hw; rewrite_behaviours Hw;
  repeat match type of Hw with
         | context [N.ltb ?a ?b] =>
             let H := fresh "Hlt" in
             destruct (N.ltb_spec a b) as [H | H]; try lia
         end;
  rewrite_behaviours Hw;
  solve [ discriminate | congruence | lia ].

Ltac find_in := cbn; repeat first [ left; reflexivity | right ].

(** The same by position: the first element of the list that fits. *)
Ltac find_nth :=
  let rec go n fuel :=
    lazymatch fuel with
    | O => fail
    | S ?fuel' =>
        first [ apply (nth_error_In _ n); reflexivity | go (S n) fuel' ]
    end in
  go 0%nat 40%nat.

(** Keep of every named instant only what it is at least. *)
Ltac lower_bounds :=
  repeat match goal with
         | Ht : ?t = N.max ?a ?b |- _ =>
             assert (N.max a b <= t) by (rewrite Ht; apply N.le_refl); clear Ht
         end;
  repeat match goal with
         | H : N.max _ _ <= _ |- _ => apply N.max_lub_iff in H; destruct H
         end.

Section Both.

Variable rt : Runtime.
Variable config : Config.

(** What every run of [both] has in common, from one pass over its runs. *)
Lemma both_summary :
  let res := both rt config init_world in
  let w := world_of res in
  is_ok res = runs_to_end rt /\
  (forall r, count_calls r Shutdown w = if is_ok res then 1%nat else 0%nat) /\
  error_logs w = [] /\
  let paired mE mT :=
    count_calls Explorer mE w = count_calls Trainer mT w /\
    (count_calls Explorer mE w <= 1)%nat in
  paired Ready Ready /\ paired Prepare Prepare /\
  paired SyncWeight SyncWeight /\ paired Explore Train /\
  paired Shutdown Shutdown /\
  count_calls Explorer Train w = 0%nat /\
  count_calls Trainer Explore w = 0%nat /\
  count_calls Explorer Benchmark w = 0%nat /\
  count_calls Trainer Benchmark w = 0%nat.
Proof.
  cbv zeta. remember (both rt config init_world) as res eqn:E.
  exec E.
  all: subst res; cbn.
  all: split; [| split; [intros r; destruct r; reflexivity
                        | split; [reflexivity | repeat split; auto]]].
  all: unfold runs_to_end, reaches_race, passes, winner.
  all: rewrite_behaviours_goal; cbn; try reflexivity.
  all: decide_ltb; rewrite_behaviours_goal; cbn; try reflexivity.
  all: rewrite_behaviours_goal; cbn; reflexivity.
Qed.

Lemma both_completes_iff :
  is_ok (both rt config init_world) = runs_to_end rt.
Proof. exact (proj1 both_summary). Qed.

Lemma shutdown_count (r : role) :
  count_calls r Shutdown (world_of (both rt config init_world)) =
  if is_ok (both rt config init_world) then 1%nat else 0%nat.
Proof. exact (proj1 (proj2 both_summary) r). Qed.

Lemma failed_prepare_stops_everything (r r' : role) (m : method) :
  fails (behaviour rt r Prepare) = true ->
  In m [SyncWeight; Explore; Train; Shutdown] ->
  count_calls r' m (world_of (both rt config init_world)) = 0%nat.
Proof.
  intros Hfail Hm.
  remember (both rt config init_world) as res eqn:E.
  destruct (behaviour rt Explorer Prepare) as [dE [vE|]|] eqn:HE;
    destruct (behaviour rt Trainer Prepare) as [dT [vT|]|] eqn:HT;
    try (destruct r; rewrite ?HE, ?HT in Hfail; discriminate Hfail).
  all: exec E.
  all: subst res; cbn in Hm.
  all: destruct Hm as [<- | [<- | [<- | [<- | []]]]]; destruct r'; reflexivity.
Qed.

End Both.

(** C1 (as amended).  In "both" mode [shutdown] is dispatched to each handle
    at most once, and to both handles exactly once precisely when [both] runs
    to its last statement, that is when both actors are created, the
    readiness, prepare and sync_weight barriers all pass and the first
    finished [run] returns a value.  When [prepare] fails on either handle,
    no handle receives [sync_weight], [run] or [shutdown]. *)
Theorem shutdown_exactly_when_both_completes (rt : Runtime) (config : Config) :
  let res := both rt config init_world in
  is_ok res = runs_to_end rt /\
  (forall r, count_calls r Shutdown (world_of res) =
             if runs_to_end rt then 1%nat else 0%nat) /\
  (forall r, fails (behaviour rt r Prepare) = true ->
     forall r' m, In m [SyncWeight; Explore; Train; Shutdown] ->
       count_calls r' m (world_of res) = 0%nat).
Proof.
  cbv zeta. split; [apply (both_completes_iff rt config) | split].
  - intros r. rewrite <- (both_completes_iff rt config). apply shutdown_count.
  - intros r Hfail r' m Hm. now apply (failed_prepare_stops_everything rt config r).
Qed.

Lemma shutdown_exactly_when_both_completes_witness :
  fails (behaviour failing_prepare_cluster Trainer Prepare) = true /\
  forall r' m, In m [SyncWeight; Explore; Train; Shutdown] ->
    count_calls r' m (world_of (both failing_prepare_cluster example_config init_world))
    = 0%nat.
Proof.
  split; [reflexivity |].
  exact (proj2 (proj2 (shutdown_exactly_when_both_completes
                         failing_prepare_cluster example_config))
               Trainer eq_refl).
Defined.

(** C1 as stated fails: when [prepare] raises on the Trainer, [both] is left
    by the exception and neither handle receives [shutdown]. *)
Lemma prepare_failure_sends_no_shutdown :
  let res := both failing_prepare_cluster example_config init_world in
  fails (behaviour failing_prepare_cluster Trainer Prepare) = true /\
  is_ok res = false /\
  count_calls Explorer Shutdown (world_of res) = 0%nat /\
  count_calls Trainer Shutdown (world_of res) = 0%nat.
Proof. cbv zeta. repeat split; vm_compute; reflexivity. Qed.

Section Race.

Variable rt : Runtime.
Variable config : Config.

(** C2 (as amended).  When the [run] operation that resolves first has
    raised, [ray.wait] reports it as ready, and retrieving its result leaves
    the race at once: no wait on the other operation is performed and no
    handle receives [shutdown]. *)
Theorem failed_first_run_skips_wait_and_shutdown (r : role) (d : N) :
  reaches_race rt = true ->
  winner rt = Some r ->
  behaviour rt r (run_method r) = Finishes d Raises ->
  let w := world_of (both rt config init_world) in
  In (Woke [(r, run_method r)]) (actions w) /\
  grace_waits w = [] /\
  shutdowns w = [].
Proof.
  intros Hreach Hwin Hrun. cbv zeta.
  use_reaches_race Hreach.
  remember (both rt config init_world) as res eqn:E.
  destruct r; cbn in Hrun.
  all: exec E.
  all: try (absurd_winner Hwin).
  all: subst res; repeat split; try reflexivity; find_in.
Qed.

(** C3.  When the Trainer's [train] completes first (it was dispatched at
    [ts] and returns the trainer's name after [d]), the launcher waits on the
    Explorer's pending operation, with the fixed timeout of 5, from the
    instant [ts + d]; that is its only timed wait.  Both [shutdown] calls are
    issued at one instant [t1] with [ts + d <= t1 <= ts + d + 5]: at the end
    of the window, or earlier at the instant the Explorer's operation
    resolved. *)
Theorem trainer_first_short_grace_window (d : N) :
  reaches_race rt = true ->
  winner rt = Some Trainer ->
  behaviour rt Trainer Train = Finishes d (Returns (trainer_name config)) ->
  exists ts t1 w,
    both rt config init_world = Ok tt w /\
    In (ts, Call Trainer Train) (events w) /\
    grace_waits w = [(ts + d, Wait [(Explorer, Explore)] (Some 5))] /\
    shutdowns w = [(t1, Call Explorer Shutdown); (t1, Call Trainer Shutdown)] /\
    ts + d <= t1 <= ts + d + 5 /\
    (t1 = ts + d + 5 \/
     exists dE rp, behaviour rt Explorer Explore = Finishes dE rp /\ t1 = ts + dE).
Proof.
  intros Hreach Hwin Hrun.
  use_reaches_race Hreach.
  remember (both rt config init_world) as res eqn:E.
  exec E.
  all: try (absurd_winner Hwin).
  all: subst res; eexists _, _, _; split; [reflexivity |].
  all: split; [find_in |].
  all: split; [cbn; repeat f_equal; lia |].
  all: split; [reflexivity |].
  all: split; [lia |].
  all: first [ left; lia
             | right; eexists _, _; split; [first [eassumption | reflexivity] | lia] ].
Qed.


(** C9.  When the token returned by the first finished [run] is neither the
    trainer's nor the explorer's name, the launcher performs no timed wait
    and issues both [shutdown] calls at the instant that [run] completed. *)
Theorem stray_token_skips_grace_wait (r : role) (d : N) (token : string) :
  reaches_race rt = true ->
  winner rt = Some r ->
  behaviour rt r (run_method r) = Finishes d (Returns token) ->
  token <> trainer_name config ->
  token <> explorer_name config ->
  exists ts w,
    both rt config init_world = Ok tt w /\
    In (ts, Call r (run_method r)) (events w) /\
    grace_waits w = [] /\
    shutdowns w =
      [(ts + d, Call Explorer Shutdown); (ts + d, Call Trainer Shutdown)].
Proof.
  intros Hreach Hwin Hrun HneT HneE.
  use_reaches_race Hreach.
  remember (both rt config init_world) as res eqn:E.
  destruct r; cbn in Hrun |- *.
  all: exec E.
  all: try contradiction.
  all: try (absurd_winner Hwin).
  all: subst res; eexists _, _; split; [reflexivity |].
  all: split; [find_in |].
  all: split; [reflexivity |].
  all: cbn; repeat f_equal; lia.
Qed.




End Race.

Lemma failed_first_run_skips_wait_and_shutdown_witness :
  let w := world_of (both failing_run_cluster example_config init_world) in
  In (Woke [(Trainer, Train)]) (actions w) /\
  grace_waits w = [] /\
  shutdowns w = [].
Proof.
  apply (failed_first_run_skips_wait_and_shutdown
           failing_run_cluster example_config Trainer 2); reflexivity.
Defined.

(** C2 as stated fails: the Trainer's [train] raises first while the
    Explorer is still running; the exception leaves [both], the Explorer's
    operation is never waited on and no [shutdown] is sent. *)
Lemma failed_run_gets_no_grace_wait :
  let res := both failing_run_cluster example_config init_world in
  winner failing_run_cluster = Some Trainer /\
  (exists w, res = Exc (RayTaskError Trainer Train) w) /\
  grace_waits (world_of res) = [] /\
  shutdowns (world_of res) = [].
Proof.
  cbv zeta. split; [reflexivity | split; [| split; reflexivity]].
  eexists. vm_compute. reflexivity.
Qed.

Lemma trainer_first_short_grace_window_witness :
  exists ts t1 w,
    both trainer_first_cluster example_config init_world = Ok tt w /\
    In (ts, Call Trainer Train) (events w) /\
    grace_waits w = [(ts + 2, Wait [(Explorer, Explore)] (Some 5))] /\
    shutdowns w = [(t1, Call Explorer Shutdown); (t1, Call Trainer Shutdown)] /\
    ts + 2 <= t1 <= ts + 2 + 5 /\
    (t1 = ts + 2 + 5 \/
     exists dE rp,
       behaviour trainer_first_cluster Explorer Explore = Finishes dE rp /\
       t1 = ts + dE).
Proof.
  apply (trainer_first_short_grace_window trainer_first_cluster example_config 2);
    reflexivity.
Defined.



Lemma stray_token_skips_grace_wait_witness :
  exists ts w,
    both stray_token_cluster example_config init_world = Ok tt w /\
    In (ts, Call Explorer Explore) (events w) /\
    grace_waits w = [] /\
    shutdowns w =
      [(ts + 10, Call Explorer Shutdown); (ts + 10, Call Trainer Shutdown)].
Proof.
  apply (stray_token_skips_grace_wait
           stray_token_cluster example_config Explorer 10 "rollout");
    [reflexivity | reflexivity | reflexivity | discriminate | discriminate].
Defined.


(** A call of a phase that has a previous phase is among the phase calls
    of the run. *)
Lemma phase_call_In (t : N) (r : role) (m m' : method) (evs : list event) :
  previous_phase m = Some m' ->
  In (t, Call r m) evs ->
  In (t, Call r m) (filter is_phase_call evs).
Proof.
  intros Hprev Hin. apply filter_In. split; [exact Hin |].
  unfold is_phase_call. cbn. now rewrite Hprev.
Qed.

(** C5.  In every run of [both], whenever a call of a phase is issued at an
    instant [t] ([prepare], [sync_weight], or a [run] operation), the call of
    the previous phase ([__ray_ready__], [prepare], [sync_weight]
    respectively) was issued on each of the two handles and returned no
    later than [t]. *)
Theorem phases_strictly_ordered (rt : Runtime) (config : Config) :
  forall t r m m',
    previous_phase m = Some m' ->
    In (t, Call r m) (events (world_of (both rt config init_world))) ->
    forall r', exists t0 d v,
      In (t0, Call r' m') (events (world_of (both rt config init_world))) /\
      behaviour rt r' m' = Finishes d (Returns v) /\
      t0 + d <= t.
Proof.
  remember (both rt config init_world) as res eqn:E.
  exec E.
  all: subst res; intros tcall rcall mcall mprev Hprev Hin r'.
  all: apply (phase_call_In _ _ _ _ _ Hprev) in Hin; cbn in Hin.
  all: repeat (destruct Hin as [Hin | Hin];
               [ injection Hin as <- <- <-; injection Hprev as <-;
                 destruct r'; eexists _, _, _;
                 (split; [find_nth | split; [eassumption | first [assumption | lia]]])
               | ]).
  all: destruct Hin.
Qed.

Lemma phases_strictly_ordered_witness :
  (exists t0 d v,
     In (t0, Call Explorer SyncWeight)
        (events (world_of (both trainer_first_cluster example_config init_world))) /\
     behaviour trainer_first_cluster Explorer SyncWeight = Finishes d (Returns v) /\
     t0 + d <= 3) /\
  (exists t0 d v,
     In (t0, Call Trainer SyncWeight)
        (events (world_of (both trainer_first_cluster example_config init_world))) /\
     behaviour trainer_first_cluster Trainer SyncWeight = Finishes d (Returns v) /\
     t0 + d <= 3).
Proof.
  assert (Hcall : In (3, Call Trainer Train)
                     (events (world_of (both trainer_first_cluster example_config
                                             init_world)))).
  { vm_compute. do 15 right. left. reflexivity. }
  pose proof (phases_strictly_ordered trainer_first_cluster example_config
                3 Trainer Train SyncWeight eq_refl Hcall) as H.
  exact (conj (H Explorer) (H Trainer)).
Defined.

(** ** Data-pipeline activation *)

Lemma all_raw_world (bufs : list StorageConfig) (w : World) :
  all_raw bufs w =
  Ok (forallb raw bufs)
     (if forallb raw bufs then w
      else {| clock := clock w;
              events := events w ++ [(clock w, Log WARNING InputNotRaw)] |}).
Proof.
  induction bufs as [| b rest IH]; [reflexivity |].
  cbn [all_raw forallb]. destruct (raw b); [exact IH | reflexivity].
Qed.

(** A failed validation leaves one warning in the log and nothing else. *)
Lemma validate_false_only_warns (p : DataPipelineConfig) (ty : string) (w w' : World) :
  validate_data_pipeline p ty w = Ok false w' ->
  exists msg,
    w' = {| clock := clock w;
            events := events w ++ [(clock w, Log WARNING msg)] |}.
Proof.
  unfold validate_data_pipeline.
  destruct (List.length (input_buffers p) =? 0)%nat.
  { intros H. injection H as <-. eexists. reflexivity. }
  destruct (existsb _ _).
  { intros H. injection H as <-. eexists. reflexivity. }
  destruct (ty =? "task")%string.
  { unfold bind. rewrite all_raw_world.
    destruct (forallb raw (input_buffers p)); [discriminate |].
    intros H. injection H as <-. eexists. reflexivity. }
  destruct (ty =? "experience")%string; [discriminate |].
  intros H. injection H as <-. eexists. reflexivity.
Qed.

Lemma warning_adds_no_request (w : World) (msg : message) :
  requests {| clock := clock w;
              events := events w ++ [(clock w, Log WARNING msg)] |}
  = requests w.
Proof.
  unfold requests, actions. cbn [events].
  rewrite map_app, filter_app. cbn. apply app_nil_r.
Qed.

Lemma truthy_nonempty (url : string) : url <> "" -> truthy (Some url) = true.
Proof.
  intros H. cbn. now rewrite (proj2 (String.eqb_neq url "") H).
Qed.

(** C6.  With a data-processor URL configured, when the validation of the
    task pipeline (resp. of the experience pipeline) returns False, the
    activation statement of [run] completes normally in the world the
    validation left, in which no request has been sent; and when both
    pipelines are configured and both validations return False, [run] goes on
    to start the cluster and the selected mode. *)
Theorem failed_validation_skips_activation
    (rt : Runtime) (config : Config) (config_path url : string) (w : World) :
  data_processor_url (data_processor config) = Some url ->
  url <> "" ->
  (forall pipeline w',
     task_pipeline (data_processor config) = Some pipeline ->
     validate_data_pipeline pipeline "task" w = Ok false w' ->
     activate_task_pipeline rt config config_path w = Ok tt w' /\
     requests w' = requests w) /\
  (forall pipeline w',
     experience_pipeline (data_processor config) = Some pipeline ->
     validate_data_pipeline pipeline "experience" w = Ok false w' ->
     activate_experience_pipeline rt config config_path w = Ok tt w' /\
     requests w' = requests w) /\
  (forall p1 p2 w1 w2 dlc,
     load_config rt config_path = Some config ->
     task_pipeline (data_processor config) = Some p1 ->
     experience_pipeline (data_processor config) = Some p2 ->
     validate_data_pipeline p1 "task" w = Ok false w1 ->
     validate_data_pipeline p2 "experience" w1 = Ok false w2 ->
     run rt config_path dlc w = launch rt config dlc w2 /\
     requests w2 = requests w).
Proof.
  intros Hurl Hne. pose proof (truthy_nonempty url Hne) as Htruthy.
  split; [| split].
  - intros pipeline w' Hp Hv. split.
    + unfold activate_task_pipeline. rewrite Hurl, Htruthy, Hp.
      unfold bind. now rewrite Hv.
    + destruct (validate_false_only_warns _ _ _ _ Hv) as [msg ->].
      apply warning_adds_no_request.
  - intros pipeline w' Hp Hv. split.
    + unfold activate_experience_pipeline. rewrite Hurl, Htruthy, Hp.
      unfold bind. now rewrite Hv.
    + destruct (validate_false_only_warns _ _ _ _ Hv) as [msg ->].
      apply warning_adds_no_request.
  - intros p1 p2 w1 w2 dlc Hload Hp1 Hp2 Hv1 Hv2. split.
    + unfold run. rewrite Hload.
      unfold activate_task_pipeline, activate_experience_pipeline.
      rewrite Hurl, Htruthy, Hp1, Hp2.
      unfold bind, ret. rewrite Hv1. cbv beta iota.
      now rewrite Hv2.
    + destruct (validate_false_only_warns _ _ _ _ Hv1) as [m1 ->].
      destruct (validate_false_only_warns _ _ _ _ Hv2) as [m2 ->].
      now rewrite !warning_adds_no_request.
Qed.

Lemma failed_validation_skips_activation_witness :
  let w1 := {| clock := 0; events := [(0, Log WARNING EmptyInputBuffers)] |} in
  let w2 := {| clock := 0;
               events := [(0, Log WARNING EmptyInputBuffers);
                          (0, Log WARNING EmptyInputBuffers)] |} in
  (activate_task_pipeline empty_pipelines_cluster empty_pipelines_config
     "trinity.yaml" init_world = Ok tt w1 /\
   requests w1 = requests init_world) /\
  (activate_experience_pipeline empty_pipelines_cluster empty_pipelines_config
     "trinity.yaml" init_world = Ok tt w1 /\
   requests w1 = requests init_world) /\
  (run empty_pipelines_cluster "trinity.yaml" false init_world =
     launch empty_pipelines_cluster empty_pipelines_config false w2 /\
   requests w2 = requests init_world).
Proof.
  cbv zeta.
  assert (Hne : "http://127.0.0.1:5005" <> "") by discriminate.
  pose proof (failed_validation_skips_activation
                empty_pipelines_cluster empty_pipelines_config "trinity.yaml"
                "http://127.0.0.1:5005" init_world eq_refl Hne)
    as (Htask & Hexp & Hrun).
  split; [| split].
  - exact (Htask empty_pipeline _ eq_refl eq_refl).
  - exact (Hexp empty_pipeline _ eq_refl eq_refl).
  - exact (Hrun empty_pipeline empty_pipeline _ _ false
                eq_refl eq_refl eq_refl eq_refl eq_refl).
Defined.

(** An experience pipeline that passes the common checks is not validated at
    all: the function raises NotImplementedError. *)
Lemma experience_pipeline_not_implemented (p : DataPipelineConfig) (w : World) :
  input_buffers p <> [] ->
  ~ In (name (output_buffer p)) (map name (input_buffers p)) ->
  validate_data_pipeline p "experience" w = Exc NotImplementedError w.
Proof.
  intros Hne Hout. unfold validate_data_pipeline.
  destruct (input_buffers p) as [| b rest] eqn:Hin; [now elim Hne |].
  cbn [List.length Nat.eqb].
  destruct (existsb _ _) eqn:Hex.
  - apply existsb_eqb_In in Hex. contradiction.
  - reflexivity.
Qed.

(** ** The entry point and its modes *)

(** [explore] and [train] catch every exception of their body. *)
Lemma explore_never_raises (rt : Runtime) (config : Config) (w : World) :
  raised (explore rt config w) = false.
Proof.
  remember (explore rt config w) as res eqn:E.
  exec E.
  all: subst res; reflexivity.
Qed.

Lemma train_never_raises (rt : Runtime) (config : Config) (w : World) :
  raised (train rt config w) = false.
Proof.
  remember (train rt config w) as res eqn:E.
  exec E.
  all: subst res; reflexivity.
Qed.

(** In "train" mode the failure of [prepare] is caught and logged, and [run]
    returns after the clean-up. *)
Lemma train_mode_failure_is_logged :
  exists w,
    run failing_prepare_train_cluster "train.yaml" false init_world = Ok tt w /\
    error_logs w = [Log ERROR TrainerFailed] /\
    In (RayTimeline "/tmp/trinity/timeline.json") (actions w).
Proof.
  eexists. split; [vm_compute; reflexivity |].
  split; [reflexivity | cbn; tauto].
Qed.

(** C8 fails in "both" mode.  The same failure of [prepare] is not caught by
    [both]: the clean-up of [run] is performed (the timeline is exported),
    nothing is logged as an error, and the exception leaves [run]. *)
Theorem both_mode_failure_escapes_run :
  exists w,
    run failing_prepare_cluster "both.yaml" false init_world =
      Exc (RayTaskError Trainer Prepare) w /\
    error_logs w = [] /\
    In (RayTimeline "/tmp/trinity/timeline.json") (actions w).
Proof.
  eexists. split; [vm_compute; reflexivity |].
  split; [reflexivity | cbn; tauto].
Qed.

(** ** More on the data-pipeline functions *)

(** X1.  A pipeline type that is neither "task" nor "experience" is always
    rejected: validate_data_pipeline returns False and logs one warning
    (the invalid-type warning when the two common checks pass). *)
Theorem validate_unknown_type_rejected
    (p : DataPipelineConfig) (ty : string) (w : World) :
  ty <> "task" -> ty <> "experience" ->
  exists msg,
    validate_data_pipeline p ty w = Ok false (warned w msg) /\
    (input_buffers p <> [] ->
     ~ In (name (output_buffer p)) (map name (input_buffers p)) ->
     msg = InvalidPipelineType ty).
Proof.
  intros Htask Hexp. unfold validate_data_pipeline.
  destruct (input_buffers p) as [| b rest] eqn:Hin.
  - exists EmptyInputBuffers. split; [reflexivity | intros H; now elim H].
  - cbn [List.length Nat.eqb].
    destruct (existsb _ _) eqn:Hex.
    + exists OutputInInputBuffers. split; [reflexivity |].
      intros _ Hout. apply existsb_eqb_In in Hex. contradiction.
    + rewrite (proj2 (String.eqb_neq ty "task") Htask).
      rewrite (proj2 (String.eqb_neq ty "experience") Hexp).
      exists (InvalidPipelineType ty). split; [reflexivity | reflexivity].
Qed.

Lemma validate_unknown_type_rejected_witness :
  exists msg,
    validate_data_pipeline raw_pipeline "tasks" init_world
      = Ok false (warned init_world msg) /\
    (input_buffers raw_pipeline <> [] ->
     ~ In (name (output_buffer raw_pipeline))
          (map name (input_buffers raw_pipeline)) ->
     msg = InvalidPipelineType "tasks").
Proof.
  apply (validate_unknown_type_rejected raw_pipeline "tasks" init_world);
    discriminate.
Defined.

(** X2.  For pipeline type "experience" validate_data_pipeline never returns
    True: it returns False with a warning when the input list is empty or
    the output buffer is among the inputs, and raises NotImplementedError,
    logging nothing, in every other case. *)
Theorem validate_experience_outcomes (p : DataPipelineConfig) (w : World) :
  (input_buffers p = [] /\
   validate_data_pipeline p "experience" w
     = Ok false (warned w EmptyInputBuffers)) \/
  (input_buffers p <> [] /\
   In (name (output_buffer p)) (map name (input_buffers p)) /\
   validate_data_pipeline p "experience" w
     = Ok false (warned w OutputInInputBuffers)) \/
  (input_buffers p <> [] /\
   ~ In (name (output_buffer p)) (map name (input_buffers p)) /\
   validate_data_pipeline p "experience" w = Exc NotImplementedError w).
Proof.
  unfold validate_data_pipeline.
  destruct (input_buffers p) as [| b rest] eqn:Hin.
  - left. split; reflexivity.
  - right. cbn [List.length Nat.eqb].
    destruct (existsb _ _) eqn:Hex.
    + left. split; [discriminate | split; [| reflexivity]].
      now apply existsb_eqb_In.
    + right. split; [discriminate | split; [| reflexivity]].
      intros HIn. apply existsb_eqb_In in HIn. congruence.
Qed.

(** X3.  validate_data_pipeline returns True only for the type "task", and a
    successful validation logs nothing: the world is left as it was. *)
Theorem validate_true_is_silent
    (p : DataPipelineConfig) (ty : string) (w w' : World) :
  validate_data_pipeline p ty w = Ok true w' ->
  ty = "task" /\ w' = w.
Proof.
  unfold validate_data_pipeline.
  destruct (List.length (input_buffers p) =? 0)%nat; [discriminate |].
  destruct (existsb _ _); [discriminate |].
  destruct (String.eqb_spec ty "task") as [-> | Hne].
  - unfold bind. rewrite all_raw_world.
    destruct (forallb raw (input_buffers p)); [| discriminate].
    intros H. injection H as <-. split; reflexivity.
  - destruct (ty =? "experience")%string; discriminate.
Qed.

Lemma validate_true_is_silent_witness :
  validate_data_pipeline raw_pipeline "task" init_world = Ok true init_world /\
  ("task" = "task" /\ init_world = init_world).
Proof.
  split; [reflexivity |].
  apply (validate_true_is_silent raw_pipeline "task" init_world init_world).
  reflexivity.
Defined.

(** What [activate_data_module] does, in full. *)
Lemma activate_data_module_effects
    (rt : Runtime) (url config_path : string) (w : World) :
  exists w',
    activate_data_module rt url config_path w = Ok tt w' /\
    clock w' = clock w /\
    requests w' = (requests w ++ [Request url config_path])%list /\
    error_logs w' =
      (error_logs w ++
       (if (fst (request rt url config_path) =? 0)%Z then []
        else [Log ERROR (FailedToActivate (snd (request rt url config_path)))]))%list.
Proof.
  unfold activate_data_module, logger, bind, emit, ret.
  destruct (fst (request rt url config_path) =? 0)%Z; cbn.
  all: eexists; split; [reflexivity |]; split; [reflexivity |].
  all: unfold requests, error_logs, actions; cbn [events].
  all: rewrite ?map_app, ?filter_app; cbn; rewrite ?app_nil_r.
  all: split; reflexivity.
Qed.


(** The verdict on a task pipeline, and the one warning a rejection logs. *)
Lemma validate_task_world (p : DataPipelineConfig) (w : World) :
  let verdict :=
    negb (List.length (input_buffers p) =? 0)%nat
    && negb (existsb (String.eqb (name (output_buffer p)))
                     (map name (input_buffers p)))
    && forallb raw (input_buffers p) in
  exists msg,
    validate_data_pipeline p "task" w
    = Ok verdict (if verdict then w else warned w msg).
Proof.
  cbv zeta. unfold validate_data_pipeline.
  destruct (List.length (input_buffers p) =? 0)%nat.
  { exists EmptyInputBuffers. reflexivity. }
  destruct (existsb _ _).
  { exists OutputInInputBuffers. reflexivity. }
  change ("task" =? "task")%string with true. cbv iota.
  unfold bind. rewrite all_raw_world. exists InputNotRaw.
  cbn [negb andb]. now destruct (forallb raw (input_buffers p)).
Qed.

Lemma requests_warned (w : World) (msg : message) :
  requests (warned w msg) = requests w.
Proof. apply warning_adds_no_request. Qed.

Lemma logs_and_requests_warned (w : World) (msg : message) :
  forallb (fun a => is_log a || is_request a) (actions w) = true ->
  forallb (fun a => is_log a || is_request a) (actions (warned w msg)) = true.
Proof.
  intros H. unfold actions, warned in *. cbn [events].
  rewrite map_app, forallb_app.
  apply andb_true_intro. split; [exact H | reflexivity].
Qed.

(** What the task-pipeline statement of [run] does, in full. *)
Lemma task_stage_world (rt : Runtime) (config : Config) (config_path : string)
    (w : World) :
  exists w',
    activate_task_pipeline rt config config_path w = Ok tt w' /\
    requests w' =
      (requests w ++
       match task_activation_target config with
       | Some target => [Request target config_path]
       | None => []
       end)%list /\
    (forallb (fun a => is_log a || is_request a) (actions w) = true ->
     forallb (fun a => is_log a || is_request a) (actions w') = true).
Proof.
  unfold activate_task_pipeline, task_activation_target.
  destruct (data_processor_url (data_processor config)) as [url |].
  2:{ exists w. split; [reflexivity | split; [now rewrite app_nil_r | auto]]. }
  cbn [truthy]. destruct (url =? "")%string; cbn [negb andb].
  { exists w. split; [reflexivity |].
    split; [| auto].
    destruct (task_pipeline (data_processor config)); now rewrite app_nil_r. }
  destruct (task_pipeline (data_processor config)) as [p |].
  2:{ exists w. split; [reflexivity | split; [now rewrite app_nil_r | auto]]. }
  destruct (validate_task_world p w) as [msg Hv]. cbv zeta in Hv.
  unfold bind at 1. rewrite Hv.
  destruct (negb _ && negb _ && forallb raw (input_buffers p)).
  - destruct (activate_data_module_effects
                rt (url ++ "/task_pipeline") config_path w)
      as (w' & Hact & _ & Hreq & _).
    exists w'. split; [exact Hact | split; [exact Hreq |]].
    intros Hall. revert Hact.
    unfold activate_data_module, logger, bind, emit, ret.
    destruct (negb _); cbn; intros Hact; injection Hact as <-;
      unfold actions in *; cbn [events];
      rewrite ?map_app, ?forallb_app;
      repeat (apply andb_true_intro; split); solve [exact Hall | reflexivity].
  - exists (warned w msg). split; [reflexivity |].
    split; [now rewrite requests_warned, app_nil_r |].
    apply logs_and_requests_warned.
Qed.

(** X5.  The task-pipeline statement of [run] never fails, and it sends the
    activation request, to "<url>/task_pipeline", exactly when the
    data-processor URL is non-empty, a task pipeline is configured, its
    input list is non-empty, its output buffer is not among its inputs and
    all its inputs are raw; in every other case no request is sent. *)
Theorem task_pipeline_request_iff
    (rt : Runtime) (config : Config) (config_path : string) (w : World) :
  exists w',
    activate_task_pipeline rt config config_path w = Ok tt w' /\
    requests w' =
      (requests w ++
       match task_activation_target config with
       | Some target => [Request target config_path]
       | None => []
       end)%list.
Proof.
  destruct (task_stage_world rt config config_path w) as (w' & H1 & H2 & _).
  now exists w'.
Qed.

Lemma validate_experience_cases (p : DataPipelineConfig) (w : World) :
  (exists msg, validate_data_pipeline p "experience" w = Ok false (warned w msg))
  \/ validate_data_pipeline p "experience" w = Exc NotImplementedError w.
Proof.
  unfold validate_data_pipeline.
  destruct (List.length (input_buffers p) =? 0)%nat.
  { left. eexists. reflexivity. }
  destruct (existsb _ _).
  { left. eexists. reflexivity. }
  right. reflexivity.
Qed.

(** X6.  The experience-pipeline statement of [run] never sends a request:
    it either completes normally or raises NotImplementedError in the world
    it was entered in. *)
Theorem experience_pipeline_never_activated
    (rt : Runtime) (config : Config) (config_path : string) (w : World) :
  (is_ok (activate_experience_pipeline rt config config_path w) = true \/
   activate_experience_pipeline rt config config_path w
     = Exc NotImplementedError w) /\
  requests (world_of (activate_experience_pipeline rt config config_path w))
    = requests w.
Proof.
  unfold activate_experience_pipeline.
  destruct (data_processor_url (data_processor config)) as [url |];
    [| split; [left |]; reflexivity].
  destruct (truthy (Some url)); [| split; [left |]; reflexivity].
  destruct (experience_pipeline (data_processor config)) as [p |];
    [| split; [left |]; reflexivity].
  unfold bind.
  destruct (validate_experience_cases p w) as [[msg ->] | ->].
  - split; [left; reflexivity | apply requests_warned].
  - split; [right |]; reflexivity.
Qed.

(** X7.  Without a data-processor URL (None or the empty string) [run] does
    not look at the pipelines at all: nothing is validated, logged or
    requested, and [run] goes straight to the cluster set-up. *)
Theorem no_url_skips_pipelines
    (rt : Runtime) (config : Config) (config_path : string) (dlc : bool)
    (w : World) :
  load_config rt config_path = Some config ->
  truthy (data_processor_url (data_processor config)) = false ->
  run rt config_path dlc w = launch rt config dlc w.
Proof.
  intros Hload Hurl. unfold run. rewrite Hload.
  unfold activate_task_pipeline, activate_experience_pipeline.
  destruct (data_processor_url (data_processor config)) as [url |].
  - rewrite Hurl. reflexivity.
  - reflexivity.
Qed.

Lemma no_url_skips_pipelines_witness :
  run trainer_first_cluster "trinity.yaml" false init_world
  = launch trainer_first_cluster example_config false init_world.
Proof.
  apply (no_url_skips_pipelines trainer_first_cluster example_config
           "trinity.yaml" false init_world); reflexivity.
Defined.

(** X8.  With a non-empty data-processor URL, an experience pipeline that
    passes the two common checks makes [run] raise NotImplementedError
    before the cluster is set up: up to that point only log entries and
    data-processor requests have been produced (no Ray set-up, no actor, no
    clean-up). *)
Theorem valid_experience_pipeline_aborts_run
    (rt : Runtime) (config : Config) (config_path url : string)
    (p : DataPipelineConfig) (dlc : bool) :
  load_config rt config_path = Some config ->
  data_processor_url (data_processor config) = Some url ->
  url <> "" ->
  experience_pipeline (data_processor config) = Some p ->
  input_buffers p <> [] ->
  ~ In (name (output_buffer p)) (map name (input_buffers p)) ->
  exists w',
    run rt config_path dlc init_world = Exc NotImplementedError w' /\
    forallb (fun a => is_log a || is_request a) (actions w') = true.
Proof.
  intros Hload Hurl Hne Hp Hin Hout.
  destruct (task_stage_world rt config config_path init_world)
    as (w1 & Htask & _ & Hall).
  exists w1. split; [| now apply Hall].
  unfold run. rewrite Hload. unfold bind at 1. rewrite Htask.
  unfold bind at 1. unfold activate_experience_pipeline.
  rewrite Hurl, (truthy_nonempty url Hne), Hp.
  unfold bind at 1.
  now rewrite (experience_pipeline_not_implemented p w1 Hin Hout).
Qed.

Lemma valid_experience_pipeline_aborts_run_witness :
  exists w',
    run experience_pipeline_cluster "trinity.yaml" false init_world
      = Exc NotImplementedError w' /\
    forallb (fun a => is_log a || is_request a) (actions w') = true.
Proof.
  apply (valid_experience_pipeline_aborts_run experience_pipeline_cluster
           experience_pipeline_config "trinity.yaml" "http://127.0.0.1:5005"
           raw_pipeline false);
    try reflexivity; try discriminate.
  cbn. intros [H | []]. discriminate H.
Defined.

(** ** The single-worker modes *)

#[local] Arguments os_path_join : simpl never.

(** X9.  [explore] never lets an exception out.  With the Explorer created,
    its four calls (prepare, sync_weight, explore, shutdown) are awaited one
    after the other: [explore] blocks exactly when the first call that does
    not return hangs, logs "Explorer failed" exactly when the creation or
    the first call that does not return raised, and dispatches [shutdown]
    exactly when the creation and the first three calls succeeded. *)
Theorem explore_outcome (rt : Runtime) (config : Config) :
  let res := explore rt config init_world in
  let progress :=
    if spawn rt Explorer
    then await_each rt Explorer [Prepare; SyncWeight; Explore; Shutdown]
    else Failed in
  raised res = false /\
  blocked res = match progress with Hung => true | _ => false end /\
  error_logs (world_of res) =
    match progress with Failed => [Log ERROR ExplorerFailed] | _ => [] end /\
  count_calls Explorer Shutdown (world_of res) =
    (if spawn rt Explorer
        && returns (behaviour rt Explorer Prepare)
        && returns (behaviour rt Explorer SyncWeight)
        && returns (behaviour rt Explorer Explore)
     then 1 else 0)%nat.
Proof.
  cbv zeta. remember (explore rt config init_world) as res eqn:E.
  exec E.
  all: subst res; cbn; rewrite_behaviours_goal; cbn; auto.
Qed.

(** X10.  The same for [train] and the Trainer: no exception escapes, the
    four calls are awaited in turn, "Trainer failed" is logged exactly when
    the creation or the first call that does not return raised, and
    [shutdown] is dispatched exactly when creation, prepare, sync_weight and
    train succeeded. *)
Theorem train_outcome (rt : Runtime) (config : Config) :
  let res := train rt config init_world in
  let progress :=
    if spawn rt Trainer
    then await_each rt Trainer [Prepare; SyncWeight; Train; Shutdown]
    else Failed in
  raised res = false /\
  blocked res = match progress with Hung => true | _ => false end /\
  error_logs (world_of res) =
    match progress with Failed => [Log ERROR TrainerFailed] | _ => [] end /\
  count_calls Trainer Shutdown (world_of res) =
    (if spawn rt Trainer
        && returns (behaviour rt Trainer Prepare)
        && returns (behaviour rt Trainer SyncWeight)
        && returns (behaviour rt Trainer Train)
     then 1 else 0)%nat.
Proof.
  cbv zeta. remember (train rt config init_world) as res eqn:E.
  exec E.
  all: subst res; cbn; rewrite_behaviours_goal; cbn; auto.
Qed.

(** X11.  In [bench] the creation of the Explorer is outside the [try]: when
    it fails the exception leaves [bench] with nothing done.  Once the
    Explorer exists no exception escapes; prepare, benchmark and shutdown are
    awaited in turn, [sync_weight] is never called, "Benchmark finished" is
    logged exactly when prepare and benchmark returned (before [shutdown] is
    awaited), and "Benchmark failed" exactly when the first call that does
    not return raised. *)
Theorem bench_outcome (rt : Runtime) (config : Config) :
  let res := bench rt config init_world in
  if spawn rt Explorer then
    let progress := await_each rt Explorer [Prepare; Benchmark; Shutdown] in
    raised res = false /\
    blocked res = match progress with Hung => true | _ => false end /\
    error_logs (world_of res) =
      match progress with Failed => [Log ERROR BenchmarkFailed] | _ => [] end /\
    info_logs (world_of res) =
      (if returns (behaviour rt Explorer Prepare)
          && returns (behaviour rt Explorer Benchmark)
       then [Log INFO BenchmarkFinished] else []) /\
    count_calls Explorer SyncWeight (world_of res) = 0%nat
  else res = Exc (RayActorError Explorer) init_world.
Proof.
  cbv zeta. remember (bench rt config init_world) as res eqn:E.
  exec E.
  all: subst res; cbn; rewrite_behaviours_goal; cbn; auto 6.
Qed.

(** ** More on [both] *)

Section BothExtras.

Variable rt : Runtime.
Variable config : Config.

(** X12.  Once one of the two [run] operations has resolved, [both] does not
    block: it ends (normally or by an exception) no earlier than that
    resolution and at most max(5, sync_timeout) after it, even when the
    other operation never resolves. *)
Theorem both_ends_within_grace_of_first_completion
    (r : role) (d : N) (rp : reply) :
  reaches_race rt = true ->
  winner rt = Some r ->
  behaviour rt r (run_method r) = Finishes d rp ->
  exists ts,
    In (ts, Call r (run_method r))
       (events (world_of (both rt config init_world))) /\
    blocked (both rt config init_world) = false /\
    ts + d <= clock (world_of (both rt config init_world))
           <= ts + d + N.max 5 (sync_timeout config).
Proof.
  intros Hreach Hwin Hrun.
  use_reaches_race Hreach.
  remember (both rt config init_world) as res eqn:E.
  destruct r; destruct rp; cbn in Hrun |- *.
  all: exec E.
  all: try (absurd_winner Hwin).
  all: subst res; eexists; split; [find_in |].
  all: split; [reflexivity | cbn; lia].
Qed.

(** X13.  [both] always addresses the two handles together: in every run,
    each of __ray_ready__, prepare, sync_weight and shutdown is invoked on
    the Explorer as many times as on the Trainer, at most once, and [explore]
    is dispatched to the Explorer exactly when [train] is dispatched to the
    Trainer; neither handle ever receives the other's [run] method or
    [benchmark]. *)
Theorem both_calls_handles_in_pairs :
  let w := world_of (both rt config init_world) in
  let paired mE mT :=
    count_calls Explorer mE w = count_calls Trainer mT w /\
    (count_calls Explorer mE w <= 1)%nat in
  paired Ready Ready /\ paired Prepare Prepare /\
  paired SyncWeight SyncWeight /\ paired Explore Train /\
  paired Shutdown Shutdown /\
  count_calls Explorer Train w = 0%nat /\
  count_calls Trainer Explore w = 0%nat /\
  count_calls Explorer Benchmark w = 0%nat /\
  count_calls Trainer Benchmark w = 0%nat.
Proof. exact (proj2 (proj2 (proj2 (both_summary rt config)))). Qed.

(** X14.  [both] never logs at ERROR level, whatever fails: no creation
    failure, failed phase or failed [run] is reported by the function
    itself. *)
Theorem both_never_logs_an_error :
  error_logs (world_of (both rt config init_world)) = [].
Proof. exact (proj1 (proj2 (proj2 (both_summary rt config)))). Qed.

(** X15.  The result of the operation that lost the race is never looked
    at: when the first finished [run] returned and the other one raises,
    [both] still returns normally, logs no error and sends [shutdown] to the
    Explorer and then to the Trainer. *)
Theorem loser_failure_is_ignored (r : role) (d d' : N) (token : string) :
  reaches_race rt = true ->
  winner rt = Some r ->
  behaviour rt r (run_method r) = Finishes d (Returns token) ->
  behaviour rt (other r) (run_method (other r)) = Finishes d' Raises ->
  exists w,
    both rt config init_world = Ok tt w /\
    error_logs w = [] /\
    map snd (shutdowns w) = [Call Explorer Shutdown; Call Trainer Shutdown].
Proof.
  intros Hreach Hwin Hrun Hother.
  use_reaches_race Hreach.
  remember (both rt config init_world) as res eqn:E.
  destruct r; cbn in Hrun, Hother.
  all: exec E.
  all: try (absurd_winner Hwin).
  all: subst res; eexists; split; [reflexivity | split; reflexivity].
Qed.

End BothExtras.

Lemma both_ends_within_grace_of_first_completion_witness :
  exists ts,
    In (ts, Call Trainer Train)
       (events (world_of (both trainer_first_cluster example_config init_world))) /\
    blocked (both trainer_first_cluster example_config init_world) = false /\
    ts + 2 <= clock (world_of (both trainer_first_cluster example_config init_world))
           <= ts + 2 + N.max 5 (sync_timeout example_config).
Proof.
  apply (both_ends_within_grace_of_first_completion
           trainer_first_cluster example_config Trainer 2 (Returns "trainer"));
    reflexivity.
Defined.

Lemma loser_failure_is_ignored_witness :
  exists w,
    both failing_loser_cluster example_config init_world = Ok tt w /\
    error_logs w = [] /\
    map snd (shutdowns w) = [Call Explorer Shutdown; Call Trainer Shutdown].
Proof.
  apply (loser_failure_is_ignored failing_loser_cluster example_config
           Explorer 10 20 "explorer"); reflexivity.
Defined.

(** ** The entry point *)

(** X16.  A mode that is none of "explore", "train", "both" and "bench" is
    accepted silently: [run]'s launch part sets the cluster up, runs the
    clean-up and returns normally, without creating an actor or making a
    remote call. *)
Theorem unknown_mode_runs_nothing (rt : Runtime) (config : Config) (dlc : bool) :
  mode config <> "explore" -> mode config <> "train" ->
  mode config <> "both" -> mode config <> "bench" ->
  dlc = true \/ is_running rt = true ->
  exists w,
    launch rt config dlc init_world = Ok tt w /\
    spawns w = [] /\
    (forall r m, count_calls r m w = 0%nat).
Proof.
  intros H1 H2 H3 H4 Hray.
  unfold launch, dispatch, cleanup, try_finally, logger, bind, ret, raise, emit.
  rewrite (proj2 (String.eqb_neq _ _) H1), (proj2 (String.eqb_neq _ _) H2),
    (proj2 (String.eqb_neq _ _) H3), (proj2 (String.eqb_neq _ _) H4).
  destruct dlc; [| destruct Hray as [Hray | Hray]; [discriminate | rewrite Hray]].
  all: destruct (enable_ray_timeline config); cbn.
  all: eexists; split; [reflexivity | split; [reflexivity |]].
  all: intros r m; destruct r, m; reflexivity.
Qed.

Lemma unknown_mode_runs_nothing_witness :
  exists w,
    launch typo_mode_cluster typo_mode_config false init_world = Ok tt w /\
    spawns w = [] /\
    (forall r m, count_calls r m w = 0%nat).
Proof.
  apply (unknown_mode_runs_nothing typo_mode_cluster typo_mode_config false);
    try discriminate.
  right. reflexivity.
Defined.

(** X17.  The [finally] block of [run] is executed exactly when the selected
    mode does not block, whether it returned or raised: then the timeline is
    exported once, to os.path.join(cache_dir, "timeline.json"), when
    enable_ray_timeline is set (and not otherwise), and the managed cluster
    is stopped once when [dlc] is set (and not otherwise).  When the mode
    blocks, neither happens. *)
Theorem cleanup_runs_unless_blocked (rt : Runtime) (config : Config) (dlc : bool) :
  dlc = true \/ is_running rt = true ->
  let res := launch rt config dlc init_world in
  timeline_exports (world_of res) =
    (if blocked res then []
     else if enable_ray_timeline config
          then [RayTimeline (os_path_join (cache_dir config) "timeline.json")]
          else []) /\
  cluster_stops (world_of res) =
    (if blocked res then [] else if dlc then [StopRayCluster] else []).
Proof.
  intros Hray. cbv zeta.
  remember (launch rt config dlc init_world) as res eqn:E.
  unfold launch, cleanup, try_finally, dispatch in E.
  destruct (enable_ray_timeline config) eqn:Htimeline;
    destruct dlc;
    try (destruct Hray as [Hray | Hray]; [discriminate Hray | rewrite Hray in E]).
  all: exec E.
  all: subst res; split; reflexivity.
Qed.

Lemma cleanup_runs_unless_blocked_witness :
  let res := launch failing_prepare_cluster example_config false init_world in
  timeline_exports (world_of res) =
    (if blocked res then []
     else if enable_ray_timeline example_config
          then [RayTimeline (os_path_join (cache_dir example_config) "timeline.json")]
          else []) /\
  cluster_stops (world_of res) =
    (if blocked res then [] else if false then [StopRayCluster] else []).
Proof.
  apply (cleanup_runs_unless_blocked failing_prepare_cluster example_config false).
  right. reflexivity.
Defined.
